(** * Middleware of the password-generator API

    A shallow embedding of the four validators of [src/error.js]
    ([validatePasswordRequest], [validateBatchRequest],
    [validateStrengthRequest], [validatePassphraseRequest]), of its
    [errorHandler] and of its [securityHeaders], together with the
    fragment of JavaScript they rely on: JSON values, [typeof],
    truthiness, strict comparison with literals and the relational
    operators on numbers. *)

From Stdlib Require Import ZArith QArith String Ascii List Bool Lqa Lia.
From stdpp Require Import gmap strings list fin_maps.

Set Warnings "-register-all".
Local Open Scope string_scope.

(** ** JavaScript values *)

Module JS.

(** A JavaScript string is a sequence of UTF-16 code units; [.length]
    counts them.  Literals of the source are plain ASCII and are written
    with [str]. *)
Definition code_unit := N.
Definition jsstring := list code_unit.

Definition str (s : string) : jsstring :=
  map N_of_ascii (list_ascii_of_string s).

(** A number is an IEEE double: not-a-number, an infinity, or a finite
    value, which is a rational.  The validators only compare numbers with
    integer literals, which is exact on the rational a double denotes. *)
Inductive number :=
| NaN
| PosInf
| NegInf
| Fin (q : Q).

Definition lit (z : Z) : number := Fin (inject_Z z).

(** What a property read can yield: [undefined], or a JSON value. *)
Inductive value :=
| VUndefined
| VNull
| VBool (b : bool)
| VNum (x : number)
| VStr (s : jsstring)
| VArr (elems : list value)
| VObj (props : gmap jsstring value).

(** [typeof v] *)
Definition typeof (v : value) : string :=
  match v with
  | VUndefined => "undefined"
  | VNull => "object"
  | VBool _ => "boolean"
  | VNum _ => "number"
  | VStr _ => "string"
  | VArr _ => "object"
  | VObj _ => "object"
  end.

(** [v === undefined] *)
Definition is_undefined (v : value) : bool :=
  match v with
  | VUndefined => true
  | _ => false
  end.

(** [v === b] for a boolean literal [b]: strict equality never coerces. *)
Definition strict_eq_bool (v : value) (b : bool) : bool :=
  match v with
  | VBool c => Bool.eqb c b
  | _ => false
  end.

Definition Qlt_bool (a b : Q) : bool := negb (Qle_bool b a).

(** [x < y] on numbers: false as soon as one side is [NaN]. *)
Definition num_lt (x y : number) : bool :=
  match x, y with
  | NaN, _ => false
  | _, NaN => false
  | PosInf, _ => false
  | _, NegInf => false
  | NegInf, _ => true
  | Fin _, PosInf => true
  | Fin a, Fin b => Qlt_bool a b
  end.

(** [x > y] *)
Definition num_gt (x y : number) : bool := num_lt y x.

(** Truthiness ([ToBoolean]): [undefined], [null], [false], [0], [NaN]
    and the empty string are falsy, everything else is truthy. *)
Definition ToBoolean (v : value) : bool :=
  match v with
  | VUndefined => false
  | VNull => false
  | VBool b => b
  | VNum NaN => false
  | VNum (Fin q) => negb (Qeq_bool q 0)
  | VNum _ => true
  | VStr s => negb (Nat.eqb (length s) 0)
  | VArr _ => true
  | VObj _ => true
  end.

End JS.

Import JS.

(** ** The Express request and what a middleware does with it *)

Module Express.

(** [req.body] after [express.json()] (mounted for every route by the
    application): the parsed JSON object or array, or the empty object
    when the request carries no JSON. *)
Inductive jsbody :=
| BObj (props : gmap jsstring value)
| BArr (elems : list value).

(** [req.body[k]] for the keys the validators read.  None of them names
    an inherited member; of an array's own properties only [length] is
    among them (its indices are never read). *)
Definition get (b : jsbody) (k : string) : value :=
  match b with
  | BObj props => default VUndefined (props !! str k)
  | BArr elems =>
      if String.eqb k "length" then VNum (lit (Z.of_nat (length elems)))
      else VUndefined
  end.

(** The validators read nothing of [req] but its body. *)
Record request := Request { body : jsbody }.

(** The JSON payload of an error response: [{ success, error }]. *)
Record reply := Reply { success : bool; error : string }.

(** A middleware either answers, [res.status(code).json(payload)], or
    hands over with [next()]. *)
Inductive action :=
| Respond (status : Z) (payload : reply)
| Next.

(** A middleware run returns the request object as it leaves it and the
    action taken. *)
Definition middleware := request -> request * action.

End Express.

Import Express.

(** ** The validators of [src/error.js] *)

(** [return res.status(400).json({ success: false, error: msg })] *)
Definition reject (msg : string) : action :=
  Respond 400 {| success := false; error := msg |}.

(** [typeof v !== 'number' || v < lo || v > hi].  The relational operators
    stand to the right of the [typeof] test, so they are only ever applied
    to numbers. *)
Definition not_number_within (v : value) (lo hi : Z) : bool :=
  match v with
  | VNum x => num_lt x (lit lo) || num_gt x (lit hi)
  | _ => true
  end.

(** [typeof v !== 'string' || v.length > max] *)
Definition not_string_upto (v : value) (max : nat) : bool :=
  match v with
  | VStr s => Nat.ltb max (length s)
  | _ => true
  end.

Definition booleanFields : list string :=
  ["includeUpper"; "includeLower"; "includeNumbers"; "includeSymbols";
   "excludeSimilar"].

(** [req.body[field] !== undefined && typeof req.body[field] !== 'boolean'] *)
Definition not_boolean (b : jsbody) (field : string) : bool :=
  negb (is_undefined (get b field))
  && negb (String.eqb (typeof (get b field)) "boolean").

Definition validatePasswordRequest : middleware := fun req =>
  let length_ := get (body req) "length" in
  let includeUpper := get (body req) "includeUpper" in
  let includeLower := get (body req) "includeLower" in
  let includeNumbers := get (body req) "includeNumbers" in
  let includeSymbols := get (body req) "includeSymbols" in
  if negb (is_undefined length_) && not_number_within length_ 4 128 then
    (req, reject "Length must be a number between 4 and 128")
  else
    (* the [for ... of booleanFields] loop returns at the first offender *)
    match find (not_boolean (body req)) booleanFields with
    | Some field => (req, reject (field +:+ " must be a boolean value"))
    | None =>
        let hasAtLeastOneType :=
          negb (strict_eq_bool includeUpper false)
          || negb (strict_eq_bool includeLower false)
          || negb (strict_eq_bool includeNumbers false)
          || strict_eq_bool includeSymbols true in
        if negb hasAtLeastOneType then
          (req, reject "At least one character type must be selected")
        else (req, Next)
    end.

Definition validateBatchRequest : middleware := fun req =>
  let count := get (body req) "count" in
  if negb (is_undefined count) && not_number_within count 1 20 then
    (req, reject "Count must be a number between 1 and 20")
  else validatePasswordRequest req.

Definition validateStrengthRequest : middleware := fun req =>
  let password := get (body req) "password" in
  if negb (ToBoolean password) then
    (req, reject "Password is required")
  else
    match password with
    | VStr s =>
        if Nat.eqb (length s) 0 then
          (req, reject "Password cannot be empty")
        else if Nat.ltb 1000 (length s) then
          (req, reject "Password too long for analysis (max 1000 characters)")
        else (req, Next)
    | _ => (req, reject "Password must be a string")
    end.

Definition validatePassphraseRequest : middleware := fun req =>
  let wordCount := get (body req) "wordCount" in
  let separator := get (body req) "separator" in
  if negb (is_undefined wordCount) && not_number_within wordCount 2 10 then
    (req, reject "Word count must be a number between 2 and 10")
  else if negb (is_undefined separator) && not_string_upto separator 5 then
    (req, reject "Separator must be a string with maximum 5 characters")
  else (req, Next).

(** ** Vocabulary of the statements *)

(** [v < k] and [v > k] for a value that is a number. *)
Definition js_lt (v : value) (k : Z) : Prop :=
  ∃ x, v = VNum x ∧ num_lt x (lit k) = true.

Definition js_gt (v : value) (k : Z) : Prop :=
  ∃ x, v = VNum x ∧ num_gt x (lit k) = true.

(** A present field fails a numeric range check: it is not a number, or it
    is below [lo], or above [hi]. *)
Definition fails_range (v : value) (lo hi : Z) : Prop :=
  v ≠ VUndefined ∧ (typeof v ≠ "number" ∨ js_lt v lo ∨ js_gt v hi).

(** A field passes a numeric range check: it is absent, or a number that
    is neither below [lo] nor above [hi]. *)
Definition passes_range (v : value) (lo hi : Z) : Prop :=
  v = VUndefined ∨ (typeof v = "number" ∧ ¬ js_lt v lo ∧ ¬ js_gt v hi).

(** A present separator is refused: not a string, or longer than [max]. *)
Definition fails_separator (v : value) (max : nat) : Prop :=
  v ≠ VUndefined
  ∧ (typeof v ≠ "string" ∨ ∃ s, v = VStr s ∧ (max < length s)%nat).

(** A separator is let through: absent, or a string of at most [max]
    code units. *)
Definition passes_separator (v : value) (max : nat) : Prop :=
  v = VUndefined ∨ ∃ s, v = VStr s ∧ (length s ≤ max)%nat.

(** A flag is present with a value that is not a boolean. *)
Definition non_boolean_flag (b : jsbody) (field : string) : Prop :=
  get b field ≠ VUndefined ∧ typeof (get b field) ≠ "boolean".

(** Every present flag of [booleanFields] is a boolean. *)
Definition flags_typed (b : jsbody) : Prop :=
  ∀ field, In field booleanFields → ¬ non_boolean_flag b field.

(** The three default-on categories are switched off explicitly and symbols
    are not switched on explicitly. *)
Definition no_type_selected (b : jsbody) : Prop :=
  get b "includeUpper" = VBool false
  ∧ get b "includeLower" = VBool false
  ∧ get b "includeNumbers" = VBool false
  ∧ get b "includeSymbols" ≠ VBool true.

(** The answer is some HTTP 400 error reply. *)
Definition rejected (a : action) : Prop := ∃ msg, a = reject msg.

(** The decision table of [validatePasswordRequest]: which answer goes with
    which bodies, check by check in the order of the source. *)
Inductive password_verdict (b : jsbody) : action → Prop :=
| verdict_length :
    fails_range (get b "length") 4 128 →
    password_verdict b (reject "Length must be a number between 4 and 128")
| verdict_flag (earlier later : list string) (field : string) :
    passes_range (get b "length") 4 128 →
    booleanFields = (earlier ++ field :: later)%list →
    (∀ f, In f earlier → ¬ non_boolean_flag b f) →
    non_boolean_flag b field →
    password_verdict b (reject (field +:+ " must be a boolean value"))
| verdict_no_type :
    passes_range (get b "length") 4 128 →
    flags_typed b →
    no_type_selected b →
    password_verdict b
      (reject "At least one character type must be selected")
| verdict_next :
    passes_range (get b "length") 4 128 →
    flags_typed b →
    ¬ no_type_selected b →
    password_verdict b Next.

(** ** Sample requests *)

(** A request whose body is the object literal with the given members
    (of distinct names). *)
Definition object (members : list (string * value)) : request :=
  Request (BObj (list_to_map (map (λ m, (str m.1, m.2)) members))).

(** [{ length: 1, includeUpper: false, includeLower: false,
       includeNumbers: false }] *)
Definition short_without_types : request :=
  object [("length", VNum (lit 1)); ("includeUpper", VBool false);
          ("includeLower", VBool false); ("includeNumbers", VBool false)].

(** [{ includeUpper: false, includeLower: false, includeNumbers: false }] *)
Definition without_types : request :=
  object [("includeUpper", VBool false); ("includeLower", VBool false);
          ("includeNumbers", VBool false)].

(** [{ length: 1, includeUpper: "yes" }] *)
Definition short_with_text_flag : request :=
  object [("length", VNum (lit 1)); ("includeUpper", VStr (str "yes"))].

(** [{ length: 12, includeLower: null, excludeSimilar: 1 }] *)
Definition with_null_flag : request :=
  object [("length", VNum (lit 12)); ("includeLower", VNull);
          ("excludeSimilar", VNum (lit 1))].

(** [{ separator: "" }] *)
Definition empty_separator : request :=
  object [("separator", VStr [])].

(** [{ wordCount: 4, separator: "-" }] *)
Definition four_words : request :=
  object [("wordCount", VNum (lit 4)); ("separator", VStr (str "-"))].

(** [{ password: "hunter2" }] *)
Definition with_password : request :=
  object [("password", VStr (str "hunter2"))].

(** [{ password: "" }] *)
Definition empty_password : request :=
  object [("password", VStr [])].

(** [{ length: 3 }] *)
Definition length_three : request :=
  object [("length", VNum (lit 3))].

(** [{ count: 21 }] *)
Definition count_twenty_one : request :=
  object [("count", VNum (lit 21))].

(** [{}], also what a request without a JSON body comes with. *)
Definition empty_body : request := object [].

(** ** The error handler of [src/error.js] *)

(** [v === s] for a string literal [s]. *)
Definition strict_eq_str (v : value) (s : string) : bool :=
  match v with
  | VStr t => bool_decide (t = str s)
  | _ => false
  end.

(** [v === k] for an integer literal [k]: equal numbers, never [NaN]. *)
Definition strict_eq_num (v : value) (k : Z) : bool :=
  match v with
  | VNum (Fin q) => Qeq_bool q (inject_Z k)
  | _ => false
  end.

(** [err.k], read through the prototype chain: the map holds every
    property visible on the error object. *)
Definition prop (err : gmap jsstring value) (k : string) : value :=
  default VUndefined (err !! str k).

(** ['k' in err] *)
Definition has (err : gmap jsstring value) (k : string) : bool :=
  bool_decide (is_Some (err !! str k)).

(** What [errorHandler] reads of [req]: [req.url], [req.method], [req.ip]
    and [req.get('User-Agent')]. *)
Record incoming := Incoming {
  url : value;
  method : value;
  ip : value;
  userAgent : value
}.

(** What [errorHandler] reads of the process: [process.env.NODE_ENV], and
    the ISO strings of its first and second [new Date()]. *)
Record ambient := Ambient {
  NODE_ENV : value;
  logged_at : jsstring;
  answered_at : jsstring
}.

(** [res.status(code).json(members)]: the object literal is kept as the
    list of its members, in order. *)
Record response := Response {
  statusCode : value;
  json : list (string * value)
}.

(** [a || b] *)
Definition js_or (a b : value) : value := if ToBoolean a then a else b.

(** The handler writes one line to the console and answers; it never
    calls [next]. *)
Definition errorHandler (env : ambient) (err : gmap jsstring value)
    (req : incoming) : (string * list (string * value)) * response :=
  let line :=
    ("Error occurred:",
     [("message", prop err "message"); ("stack", prop err "stack");
      ("url", url req); ("method", method req);
      ("timestamp", VStr (logged_at env)); ("ip", ip req);
      ("userAgent", userAgent req)]) in
  if strict_eq_str (prop err "name") "ValidationError" then
    (line, Response (VNum (lit 400))
       [("success", VBool false);
        ("error", VStr (str "Validation Error"));
        ("details", prop err "message")])
  else if strict_eq_str (prop err "name") "SyntaxError"
          && strict_eq_num (prop err "status") 400
          && has err "body" then
    (line, Response (VNum (lit 400))
       [("success", VBool false);
        ("error", VStr (str "Invalid JSON in request body"))])
  else if strict_eq_str (prop err "code") "LIMIT_FILE_SIZE" then
    (line, Response (VNum (lit 413))
       [("success", VBool false);
        ("error", VStr (str "File too large"))])
  else if strict_eq_str (prop err "type") "entity.parse.failed" then
    (line, Response (VNum (lit 400))
       [("success", VBool false);
        ("error", VStr (str "Invalid request format"))])
  else if strict_eq_num (prop err "status") 429 then
    (line, Response (VNum (lit 429))
       [("success", VBool false);
        ("error", VStr (str "Too many requests. Please try again later."));
        ("retryAfter", prop err "retryAfter")])
  else
    (line, Response (js_or (prop err "status") (VNum (lit 500)))
       ([("success", VBool false);
         ("error",
          if strict_eq_str (NODE_ENV env) "production"
          then VStr (str "Internal server error")
          else prop err "message");
         ("timestamp", VStr (answered_at env))]
        ++ (if negb (strict_eq_str (NODE_ENV env) "production")
            then [("stack", prop err "stack")]
            else []))%list).

(** ** The security headers of [src/error.js] *)

(** [res.setHeader(name, value)]: header names are case-insensitive, so
    the response keeps its headers under a canonical form of the name
    ([canonical], lower case in Node) together with the name as given. *)
Definition setHeader (canonical : string → string) (name value : string)
    (headers : gmap string (string * string)) : gmap string (string * string) :=
  <[canonical name := (name, value)]> headers.



(** ** More vocabulary *)

(** The values [ToBoolean] sends to [false]. *)
Definition falsy (v : value) : Prop :=
  v = VUndefined ∨ v = VNull ∨ v = VBool false ∨ v = VNum NaN
  ∨ (∃ q, v = VNum (Fin q) ∧ (q == 0)%Q) ∨ v = VStr [].

(** Absent, [NaN], or a finite number between the bounds: what a range
    check lets through. *)
Definition absent_or_between (v : value) (lo hi : Z) : Prop :=
  v = VUndefined ∨ v = VNum NaN
  ∨ ∃ q, v = VNum (Fin q) ∧ (inject_Z lo <= q <= inject_Z hi)%Q.

(** Two bodies agree on the given fields. *)
Definition agree_on (fields : list string) (b1 b2 : jsbody) : Prop :=
  ∀ k, In k fields → get b1 k = get b2 k.

(** The error carries none of the marks the handler looks for before its
    default answer. *)
Definition unmarked (err : gmap jsstring value) : Prop :=
  prop err "name" ≠ VStr (str "ValidationError")
  ∧ ¬ (prop err "name" = VStr (str "SyntaxError")
       ∧ strict_eq_num (prop err "status") 400 = true
       ∧ is_Some (err !! str "body"))
  ∧ prop err "code" ≠ VStr (str "LIMIT_FILE_SIZE")
  ∧ prop err "type" ≠ VStr (str "entity.parse.failed")
  ∧ strict_eq_num (prop err "status") 429 = false.

(** [{ name: "SyntaxError", status: 400, body: "{", type:
       "entity.parse.failed", message: "Unexpected end of JSON input" }],
    as the JSON body parser raises it. *)
Definition parse_failure : gmap jsstring value :=
  list_to_map
    [(str "name", VStr (str "SyntaxError")); (str "status", VNum (lit 400));
     (str "body", VStr (str "{"));
     (str "type", VStr (str "entity.parse.failed"));
     (str "message", VStr (str "Unexpected end of JSON input"))].

(** [{ name: "Error", message: "boom", stack: "Error: boom" }] *)
Definition plain_failure : gmap jsstring value :=
  list_to_map
    [(str "name", VStr (str "Error")); (str "message", VStr (str "boom"));
     (str "stack", VStr (str "Error: boom"))].

Definition production : ambient :=
  Ambient (VStr (str "production")) (str "2024-01-01T00:00:00.000Z")
    (str "2024-01-01T00:00:00.001Z").

Definition some_request : incoming :=
  Incoming (VStr (str "/api/generate")) (VStr (str "POST"))
    (VStr (str "127.0.0.1")) VUndefined.

(** [{ length: 4.5, includeSymbols: true, includeUpper: false }] *)
Definition fractional_length : request :=
  object [("length", VNum (Fin (9 # 2))); ("includeSymbols", VBool true);
          ("includeUpper", VBool false)].

(** [{ password: 0 }] *)
Definition zero_password : request :=
  object [("password", VNum (lit 0))].

(** ** Facts about the JavaScript fragment *)

Section Values.

Implicit Types (v : value) (x : number) (q : Q) (k lo hi : Z).

Lemma is_undefined_true v : is_undefined v = true ↔ v = VUndefined.
Proof. destruct v; simpl; split; congruence. Qed.

Lemma is_undefined_false v : is_undefined v = false ↔ v ≠ VUndefined.
Proof. destruct v; simpl; split; congruence. Qed.

Lemma typeof_number v : typeof v = "number" ↔ ∃ x, v = VNum x.
Proof.
  split.
  - destruct v; simpl; try discriminate. eauto.
  - intros [x ->]. reflexivity.
Qed.

Lemma typeof_string v : typeof v = "string" ↔ ∃ s, v = VStr s.
Proof.
  split.
  - destruct v; simpl; try discriminate. eauto.
  - intros [s ->]. reflexivity.
Qed.

Lemma typeof_boolean v : typeof v = "boolean" ↔ ∃ c, v = VBool c.
Proof.
  split.
  - destruct v; simpl; try discriminate. eauto.
  - intros [c ->]. reflexivity.
Qed.

Lemma strict_eq_bool_true v (c : bool) :
  strict_eq_bool v c = true ↔ v = VBool c.
Proof.
  destruct v; simpl; try (split; discriminate).
  rewrite Bool.eqb_true_iff. split; congruence.
Qed.

Lemma Qlt_bool_iff (a b : Q) : Qlt_bool a b = true ↔ (a < b)%Q.
Proof.
  unfold Qlt_bool. rewrite negb_true_iff, <- not_true_iff_false, Qle_bool_iff.
  split; [apply Qnot_le_lt | apply Qlt_not_le].
Qed.

(** On finite numbers the operators are the order of the rationals. *)
Lemma js_lt_fin q k : js_lt (VNum (Fin q)) k ↔ (q < inject_Z k)%Q.
Proof.
  unfold js_lt. split.
  - intros (x & [= <-] & H). by apply Qlt_bool_iff.
  - intros H. exists (Fin q). split; [done | by apply Qlt_bool_iff].
Qed.

Lemma js_gt_fin q k : js_gt (VNum (Fin q)) k ↔ (inject_Z k < q)%Q.
Proof.
  unfold js_gt. split.
  - intros (x & [= <-] & H). by apply Qlt_bool_iff.
  - intros H. exists (Fin q). split; [done | by apply Qlt_bool_iff].
Qed.

(** [NaN] compares false both ways, so it is never out of range. *)
Lemma js_nan_unordered k : ¬ js_lt (VNum NaN) k ∧ ¬ js_gt (VNum NaN) k.
Proof. split; intros (x & [= <-] & H); discriminate H. Qed.

(** The infinities, which [JSON.parse] yields on overflow, are out of any
    range. *)
Lemma js_infinite_out_of_range lo hi :
  js_gt (VNum PosInf) hi ∧ js_lt (VNum NegInf) lo.
Proof. split; eexists; split; reflexivity. Qed.

(** The range test of the validators, read off the source expression. *)
Lemma not_number_within_true v lo hi :
  not_number_within v lo hi = true
  ↔ typeof v ≠ "number" ∨ js_lt v lo ∨ js_gt v hi.
Proof.
  unfold js_lt, js_gt. destruct v; simpl;
    try (split; [intros _; left; discriminate | done]).
  rewrite orb_true_iff. split.
  - intros [H | H]; [right; left | right; right]; eauto.
  - intros [H | [(y & [= <-] & H) | (y & [= <-] & H)]]; auto.
Qed.

Lemma not_number_within_false v lo hi :
  not_number_within v lo hi = false
  ↔ typeof v = "number" ∧ ¬ js_lt v lo ∧ ¬ js_gt v hi.
Proof.
  rewrite <- not_true_iff_false, not_number_within_true.
  split.
  - intros H. split; [| split]; [| intros ?; apply H; auto ..].
    destruct (string_dec (typeof v) "number"); [done |].
    exfalso; apply H; auto.
  - intros (Ht & Hl & Hg) [H | [H | H]]; auto.
Qed.

Lemma range_check_true v lo hi :
  negb (is_undefined v) && not_number_within v lo hi = true
  ↔ fails_range v lo hi.
Proof.
  unfold fails_range.
  by rewrite andb_true_iff, negb_true_iff, is_undefined_false,
    not_number_within_true.
Qed.

Lemma range_check_false v lo hi :
  negb (is_undefined v) && not_number_within v lo hi = false
  ↔ passes_range v lo hi.
Proof.
  unfold passes_range.
  by rewrite andb_false_iff, negb_false_iff, is_undefined_true,
    not_number_within_false.
Qed.

(** Passing and failing exclude each other and cover every value. *)
Lemma passes_not_fails v lo hi : passes_range v lo hi → ¬ fails_range v lo hi.
Proof.
  rewrite <- range_check_false, <- range_check_true. congruence.
Qed.

Lemma passes_or_fails v lo hi : passes_range v lo hi ∨ fails_range v lo hi.
Proof.
  rewrite <- range_check_false, <- range_check_true.
  destruct (negb (is_undefined v) && not_number_within v lo hi); auto.
Qed.

(** A finite number inside the bounds passes, whatever the bounds. *)
Lemma passes_range_fin q lo hi :
  (inject_Z lo <= q <= inject_Z hi)%Q → passes_range (VNum (Fin q)) lo hi.
Proof.
  intros [Hlo Hhi]. right. rewrite js_lt_fin, js_gt_fin.
  split; [done |]. split; apply Qle_not_lt; assumption.
Qed.

Lemma not_string_upto_true v (max : nat) :
  not_string_upto v max = true
  ↔ typeof v ≠ "string" ∨ ∃ s, v = VStr s ∧ (max < length s)%nat.
Proof.
  destruct v; simpl;
    try (split; [intros _; left; discriminate | done]).
  rewrite Nat.ltb_lt. split.
  - intros H. right. eauto.
  - intros [H | (s' & [= <-] & H)]; [by destruct H | done].
Qed.

Lemma not_string_upto_false v (max : nat) :
  not_string_upto v max = false ↔ ∃ s, v = VStr s ∧ (length s ≤ max)%nat.
Proof.
  destruct v; simpl; try (split; [done | by intros (? & ? & ?)]).
  rewrite Nat.ltb_ge. split.
  - intros H. eauto.
  - by intros (s' & [= <-] & H).
Qed.

Lemma separator_check_true v (max : nat) :
  negb (is_undefined v) && not_string_upto v max = true
  ↔ fails_separator v max.
Proof.
  unfold fails_separator.
  by rewrite andb_true_iff, negb_true_iff, is_undefined_false,
    not_string_upto_true.
Qed.

Lemma separator_check_false v (max : nat) :
  negb (is_undefined v) && not_string_upto v max = false
  ↔ passes_separator v max.
Proof.
  unfold passes_separator.
  by rewrite andb_false_iff, negb_false_iff, is_undefined_true,
    not_string_upto_false.
Qed.

(** Every non-empty string is truthy, the empty string is falsy. *)
Lemma ToBoolean_string s : ToBoolean (VStr s) = true ↔ s ≠ [].
Proof. destruct s; simpl; split; congruence. Qed.

End Values.

(** ** How [validatePasswordRequest] decides *)

Section PasswordRequest.

Implicit Types (b : jsbody) (req : request) (a : action).

(** [find] stops at the first element that satisfies the test, as the
    [for ... of] loop with its early [return] does. *)
Lemma find_first {A} (p : A → bool) (l : list A) (x : A) :
  find p l = Some x →
  ∃ earlier later,
    l = (earlier ++ x :: later)%list
    ∧ (∀ y, In y earlier → p y = false)
    ∧ p x = true.
Proof.
  induction l as [| y l IH]; simpl; [discriminate |].
  destruct (p y) eqn:Hy.
  - intros [= ->]. exists [], l. by split; [| split; [intros ? [] |]].
  - intros H. destruct (IH H) as (earlier & later & -> & Hpre & Hx).
    exists (y :: earlier), later. split; [done |]. split; [| done].
    intros z [<- | Hz]; auto.
Qed.

Lemma not_boolean_true b field :
  not_boolean b field = true ↔ non_boolean_flag b field.
Proof.
  unfold not_boolean, non_boolean_flag.
  rewrite andb_true_iff, !negb_true_iff, is_undefined_false.
  rewrite <- not_true_iff_false, String.eqb_eq. done.
Qed.

Lemma not_boolean_false b field :
  not_boolean b field = false ↔ ¬ non_boolean_flag b field.
Proof. rewrite <- not_boolean_true. symmetry. apply not_true_iff_false. Qed.

Lemma find_not_boolean_none b :
  find (not_boolean b) booleanFields = None ↔ flags_typed b.
Proof.
  unfold flags_typed. split.
  - intros H f Hf. apply not_boolean_false. by apply (find_none _ _ H).
  - intros H. destruct (find _ _) as [f |] eqn:Hfind; [| done].
    apply find_some in Hfind as [Hin Hf].
    apply not_boolean_true in Hf. by destruct (H f Hin).
Qed.

(** The disjunction [hasAtLeastOneType] is false exactly on the bodies
    with no type selected. *)
Lemma hasAtLeastOneType_false b :
  negb (strict_eq_bool (get b "includeUpper") false)
  || negb (strict_eq_bool (get b "includeLower") false)
  || negb (strict_eq_bool (get b "includeNumbers") false)
  || strict_eq_bool (get b "includeSymbols") true = false
  ↔ no_type_selected b.
Proof.
  unfold no_type_selected.
  rewrite !orb_false_iff, !negb_false_iff, !strict_eq_bool_true.
  rewrite <- not_true_iff_false, strict_eq_bool_true. tauto.
Qed.

Lemma validatePasswordRequest_verdict req :
  password_verdict (body req) (validatePasswordRequest req).2.
Proof.
  unfold validatePasswordRequest.
  destruct (negb (is_undefined _) && not_number_within _ 4 128) eqn:Hlen.
  { apply verdict_length. by apply range_check_true. }
  apply range_check_false in Hlen.
  destruct (find _ booleanFields) as [field |] eqn:Hfind.
  { apply find_first in Hfind as (earlier & later & Hsplit & Hpre & Hbad).
    apply verdict_flag with earlier later; [done .. | |].
    - intros f Hf. by apply not_boolean_false, Hpre.
    - by apply not_boolean_true. }
  apply find_not_boolean_none in Hfind.
  match goal with |- context [if negb ?c then _ else _] =>
    destruct c eqn:Htypes end; simpl.
  - apply verdict_next; [done .. |].
    rewrite <- hasAtLeastOneType_false. congruence.
  - apply verdict_no_type; [done .. |]. by apply hasAtLeastOneType_false.
Qed.

(** A flag-type message is none of the other two messages. *)
Lemma flag_message_distinct field :
  In field booleanFields →
  field +:+ " must be a boolean value"
    ≠ "Length must be a number between 4 and 128"
  ∧ field +:+ " must be a boolean value"
    ≠ "At least one character type must be selected"
  ∧ field +:+ " must be a boolean value"
    ≠ "Count must be a number between 1 and 20".
Proof.
  intros Hin. repeat (destruct Hin as [<- | Hin]; [by repeat split |]).
  destruct Hin.
Qed.

Lemma in_booleanFields_middle (earlier later : list string) field :
  booleanFields = (earlier ++ field :: later)%list → In field booleanFields.
Proof. intros ->. apply in_elt. Qed.

(** A flag-type answer cannot carry one of the fixed messages. *)
Ltac flag_clash :=
  match goal with
  | Hsplit : booleanFields = (_ ++ _ :: _)%list |- _ =>
      apply in_booleanFields_middle, flag_message_distinct in Hsplit;
      destruct Hsplit as (? & ? & ?); congruence
  end.

(** Reading the table backwards, one message at a time. *)
Lemma verdict_length_inv b :
  password_verdict b (reject "Length must be a number between 4 and 128") →
  fails_range (get b "length") 4 128.
Proof. intros H. inversion H; [done | flag_clash]. Qed.

Lemma verdict_no_type_inv b :
  password_verdict b (reject "At least one character type must be selected") →
  passes_range (get b "length") 4 128 ∧ flags_typed b ∧ no_type_selected b.
Proof. intros H. inversion H; [flag_clash | done]. Qed.

Lemma verdict_flag_inv b field :
  In field booleanFields →
  password_verdict b (reject (field +:+ " must be a boolean value")) →
  passes_range (get b "length") 4 128 ∧ ¬ flags_typed b.
Proof.
  intros Hin H.
  pose proof (flag_message_distinct _ Hin) as (Hl & Ht & _).
  inversion H as [| earlier later field' Hp Hsplit Hpre Hbad Hmsg | |];
    try congruence.
  split; [done |]. intros Htyped.
  apply (Htyped field'); [| done]. by eapply in_booleanFields_middle.
Qed.

Lemma verdict_next_inv b :
  password_verdict b Next →
  passes_range (get b "length") 4 128
  ∧ flags_typed b ∧ ¬ no_type_selected b.
Proof. by inversion 1. Qed.

Lemma verdict_count_inv b :
  ¬ password_verdict b (reject "Count must be a number between 1 and 20").
Proof. intros H. inversion H. flag_clash. Qed.

(** Whatever the body, the validator answers with an error or calls
    [next()]; every error is an HTTP 400. *)
Lemma verdict_rejected_or_next b a :
  password_verdict b a → rejected a ∨ a = Next.
Proof. unfold rejected. destruct 1; eauto. Qed.

End PasswordRequest.

(** ** How the other validators decide *)

Section OtherValidators.

Implicit Types (req : request).

Lemma length_check_fires req :
  fails_range (get (body req) "length") 4 128 →
  (validatePasswordRequest req).2
  = reject "Length must be a number between 4 and 128".
Proof.
  intros H. apply range_check_true in H.
  unfold validatePasswordRequest. by rewrite H.
Qed.

Lemma validateBatchRequest_cases req :
  (fails_range (get (body req) "count") 1 20
   ∧ (validateBatchRequest req).2
     = reject "Count must be a number between 1 and 20")
  ∨ (passes_range (get (body req) "count") 1 20
     ∧ validateBatchRequest req = validatePasswordRequest req).
Proof.
  unfold validateBatchRequest.
  destruct (negb (is_undefined _) && not_number_within _ 1 20) eqn:Hcount.
  - left. by apply range_check_true in Hcount.
  - right. by apply range_check_false in Hcount.
Qed.

Lemma validatePassphraseRequest_cases req :
  (fails_range (get (body req) "wordCount") 2 10
   ∧ (validatePassphraseRequest req).2
     = reject "Word count must be a number between 2 and 10")
  ∨ (passes_range (get (body req) "wordCount") 2 10
     ∧ fails_separator (get (body req) "separator") 5
     ∧ (validatePassphraseRequest req).2
       = reject "Separator must be a string with maximum 5 characters")
  ∨ (passes_range (get (body req) "wordCount") 2 10
     ∧ passes_separator (get (body req) "separator") 5
     ∧ (validatePassphraseRequest req).2 = Next).
Proof.
  unfold validatePassphraseRequest.
  destruct (negb (is_undefined _) && not_number_within _ 2 10) eqn:Hwords.
  { left. by apply range_check_true in Hwords. }
  apply range_check_false in Hwords. right.
  destruct (negb (is_undefined _) && not_string_upto _ 5) eqn:Hsep.
  - left. by apply separator_check_true in Hsep.
  - right. by apply separator_check_false in Hsep.
Qed.

Lemma validateStrengthRequest_cases req :
  (ToBoolean (get (body req) "password") = false
   ∧ (validateStrengthRequest req).2 = reject "Password is required")
  ∨ (ToBoolean (get (body req) "password") = true
     ∧ typeof (get (body req) "password") ≠ "string"
     ∧ (validateStrengthRequest req).2 = reject "Password must be a string")
  ∨ (∃ s, get (body req) "password" = VStr s
          ∧ (1000 < length s)%nat
          ∧ (validateStrengthRequest req).2
            = reject "Password too long for analysis (max 1000 characters)")
  ∨ (∃ s, get (body req) "password" = VStr s
          ∧ (1 ≤ length s ≤ 1000)%nat
          ∧ (validateStrengthRequest req).2 = Next).
Proof.
  unfold validateStrengthRequest.
  destruct (ToBoolean _) eqn:Htruthy; simpl; [| by left].
  right.
  destruct (get (body req) "password") as [| | c | x | s | elems | props]
    eqn:Hpassword; try (left; by repeat split).
  right. apply ToBoolean_string in Htruthy.
  destruct (Nat.eqb_spec (length s) 0) as [Hzero | Hpos].
  { destruct s; [by destruct Htruthy | discriminate Hzero]. }
  destruct (Nat.ltb_spec 1000 (length s)).
  - left. exists s. by repeat split.
  - right. exists s. split; [done |]. split; [lia | done].
Qed.

(** What is falsy among the values a password field can hold. *)
Lemma ToBoolean_false_not_text (v : value) :
  ToBoolean v = false → v = VStr [] ∨ typeof v ≠ "string".
Proof.
  destruct v as [| | c | x | s | elems | props]; simpl; intros H;
    try (right; discriminate).
  left. destruct s; [done | discriminate].
Qed.

End OtherValidators.

(** ** The length, count and flag checks *)

(** C4.  When the body defines [length], [validatePasswordRequest] answers
    HTTP 400 with "Length must be a number between 4 and 128" exactly when
    [length] is not a number, or [length < 4], or [length > 128]; a numeric
    length with [4 <= length <= 128] is never answered with that error. *)
Theorem length_check_exact (req : request) :
  get (body req) "length" ≠ VUndefined →
  ((validatePasswordRequest req).2
     = reject "Length must be a number between 4 and 128"
   ↔ typeof (get (body req) "length") ≠ "number"
     ∨ js_lt (get (body req) "length") 4
     ∨ js_gt (get (body req) "length") 128)
  ∧ (∀ q : Q,
       get (body req) "length" = VNum (Fin q) →
       (4 <= q <= 128)%Q →
       (validatePasswordRequest req).2
       ≠ reject "Length must be a number between 4 and 128").
Proof.
  intros Hdefined.
  pose proof (validatePasswordRequest_verdict req) as Hverdict.
  split; [split |].
  - intros Hanswer. rewrite Hanswer in Hverdict.
    by apply verdict_length_inv in Hverdict as [_ Hwhy].
  - intros Hwhy. by apply length_check_fires.
  - intros q Hq Hbounds Hanswer. rewrite Hanswer in Hverdict.
    apply verdict_length_inv in Hverdict. rewrite Hq in Hverdict.
    by eapply passes_not_fails; [apply passes_range_fin |].
Qed.

(** The length check at [{ length: 3 }]. *)
Lemma length_check_exact_witness :
  get (body length_three) "length" ≠ VUndefined
  ∧ (validatePasswordRequest length_three).2
    = reject "Length must be a number between 4 and 128".
Proof.
  assert (Hdefined : get (body length_three) "length" ≠ VUndefined)
    by (vm_compute; discriminate).
  split; [exact Hdefined |].
  apply (proj2 (proj1 (length_check_exact length_three Hdefined))).
  right; left. apply js_lt_fin. reflexivity.
Defined.

(** An array body defines [length] too: its own.  The body
    [[null, null, null, null]] passes, [[null]] does not. *)
Example array_body_length :
  (validatePasswordRequest (Request (BArr [VNull; VNull; VNull; VNull]))).2
  = Next
  ∧ (validatePasswordRequest (Request (BArr [VNull]))).2
    = reject "Length must be a number between 4 and 128".
Proof. by vm_compute. Qed.

(** C5.  When the body defines [count], [validateBatchRequest] answers
    HTTP 400 with "Count must be a number between 1 and 20" exactly when
    [count] is not a number, or [count < 1], or [count > 20]; a batch
    request that is not answered with the count error is handled by
    [validatePasswordRequest] on the same request, so whatever that
    validator refuses the batch validator refuses too, and a batch request
    is passed on exactly when the count check and all of
    [validatePasswordRequest]'s checks let it through. *)
Theorem count_check_exact (req : request) :
  (get (body req) "count" ≠ VUndefined →
   ((validateBatchRequest req).2
      = reject "Count must be a number between 1 and 20"
    ↔ typeof (get (body req) "count") ≠ "number"
      ∨ js_lt (get (body req) "count") 1
      ∨ js_gt (get (body req) "count") 20))
  ∧ ((validateBatchRequest req).2
       ≠ reject "Count must be a number between 1 and 20" →
     validateBatchRequest req = validatePasswordRequest req)
  ∧ (rejected (validatePasswordRequest req).2 →
     rejected (validateBatchRequest req).2)
  ∧ ((validateBatchRequest req).2 = Next
     ↔ passes_range (get (body req) "count") 1 20
       ∧ (validatePasswordRequest req).2 = Next).
Proof.
  pose proof (validatePasswordRequest_verdict req) as Hverdict.
  destruct (validateBatchRequest_cases req)
    as [[Hfails Hanswer] | [Hpasses Hsame]].
  - rewrite Hanswer. split; [| split; [| split]].
    + intros _. split; [intros _; apply Hfails | done].
    + done.
    + intros _. by eexists.
    + split; [done |]. intros [Hpasses _].
      by destruct (passes_not_fails _ _ _ Hpasses).
  - rewrite Hsame. split; [| split; [| split]]; [| done | done |].
    + intros Hdefined. split.
      * intros Hanswer. rewrite Hanswer in Hverdict.
        by apply verdict_count_inv in Hverdict.
      * intros Hwhy. by destruct (passes_not_fails _ _ _ Hpasses).
    + split; [done | by intros [_ Hnext]].
Qed.

(** The count check at [{ count: 21 }]. *)
Lemma count_check_exact_witness :
  get (body count_twenty_one) "count" ≠ VUndefined
  ∧ (validateBatchRequest count_twenty_one).2
    = reject "Count must be a number between 1 and 20".
Proof.
  assert (Hdefined : get (body count_twenty_one) "count" ≠ VUndefined)
    by (vm_compute; discriminate).
  split; [exact Hdefined |].
  apply (proj2 (proj1 (count_check_exact count_twenty_one) Hdefined)).
  right; right. apply js_gt_fin. reflexivity.
Defined.

(** C1, as the claim has it, fails: with [length] 1 and the three default-on
    flags [false], no type is selected, yet the answer is the length error
    and not "At least one character type must be selected". *)
Lemma no_type_but_length_error :
  no_type_selected (body short_without_types)
  ∧ (validatePasswordRequest short_without_types).2
    = reject "Length must be a number between 4 and 128"
  ∧ ¬ ((validatePasswordRequest short_without_types).2
         = reject "At least one character type must be selected"
       ↔ no_type_selected (body short_without_types)).
Proof.
  assert (Hnone : no_type_selected (body short_without_types))
    by (unfold no_type_selected; vm_compute; by repeat split).
  split; [done |]. split; [by vm_compute |].
  intros [_ Hback]. specialize (Hback Hnone). vm_compute in Hback.
  discriminate Hback.
Qed.

(** C1, amended.  [validatePasswordRequest] answers HTTP 400 with "At
    least one character type must be selected" if and only if the request
    passes the length check, every present flag of [booleanFields] is a
    boolean, and [includeUpper], [includeLower], [includeNumbers] are all
    [false] while [includeSymbols] is not [true].  A request with those
    flag values is answered with an HTTP 400 in any case (by an earlier
    check otherwise).  A request that omits one of the three default-on
    flags, or sets [includeSymbols] to [true], is never answered with that
    error. *)
Theorem no_type_check_exact (req : request) :
  ((validatePasswordRequest req).2
     = reject "At least one character type must be selected"
   ↔ passes_range (get (body req) "length") 4 128
     ∧ flags_typed (body req)
     ∧ no_type_selected (body req))
  ∧ (no_type_selected (body req) → rejected (validatePasswordRequest req).2)
  ∧ (get (body req) "includeUpper" = VUndefined
     ∨ get (body req) "includeLower" = VUndefined
     ∨ get (body req) "includeNumbers" = VUndefined
     ∨ get (body req) "includeSymbols" = VBool true →
     (validatePasswordRequest req).2
     ≠ reject "At least one character type must be selected").
Proof.
  pose proof (validatePasswordRequest_verdict req) as Hverdict.
  assert (Hforth : (validatePasswordRequest req).2
            = reject "At least one character type must be selected" →
          passes_range (get (body req) "length") 4 128
          ∧ flags_typed (body req)
          ∧ no_type_selected (body req)).
  { intros Hanswer. rewrite Hanswer in Hverdict.
    by apply verdict_no_type_inv in Hverdict. }
  split; [split; [done |] | split].
  - intros (Hlength & Hflags & Hnone).
    destruct Hverdict as [Hfails | earlier later field _ Hsplit _ Hbad | |];
      [| | done |].
    + by destruct (passes_not_fails _ _ _ Hlength).
    + destruct (Hflags field); [| done]. by eapply in_booleanFields_middle.
    + done.
  - intros Hnone.
    destruct (verdict_rejected_or_next _ _ Hverdict) as [| Hnext]; [done |].
    rewrite Hnext in Hverdict.
    by apply verdict_next_inv in Hverdict as (_ & _ & Hsome).
  - intros Hdefault Hanswer.
    destruct (Hforth Hanswer)
      as (_ & _ & Hupper & Hlower & Hnumbers & Hsymbols).
    destruct Hdefault as [H | [H | [H | H]]]; congruence.
Qed.

(** The type check at [{ includeUpper: false, includeLower: false,
    includeNumbers: false }]. *)
Lemma no_type_check_exact_witness :
  passes_range (get (body without_types) "length") 4 128
  ∧ flags_typed (body without_types)
  ∧ no_type_selected (body without_types)
  ∧ (validatePasswordRequest without_types).2
    = reject "At least one character type must be selected".
Proof.
  assert (Hlength : passes_range (get (body without_types) "length") 4 128)
    by (left; reflexivity).
  assert (Hflags : flags_typed (body without_types)).
  { intros field Hin [Hdefined Hbool].
    repeat (destruct Hin as [<- | Hin];
            [vm_compute in Hdefined, Hbool; congruence |]).
    destruct Hin. }
  assert (Hnone : no_type_selected (body without_types))
    by (unfold no_type_selected; vm_compute; by repeat split).
  split; [exact Hlength |]. split; [exact Hflags |]. split; [exact Hnone |].
  exact (proj2 (proj1 (no_type_check_exact without_types))
           (conj Hlength (conj Hflags Hnone))).
Defined.

(** C7, as the claim has it, fails: [includeUpper] is the string "yes", but
    [length] is 1, so the answer is the length error and none of the
    flag-type errors. *)
Lemma text_flag_but_length_error :
  In "includeUpper" booleanFields
  ∧ non_boolean_flag (body short_with_text_flag) "includeUpper"
  ∧ (validatePasswordRequest short_with_text_flag).2
    = reject "Length must be a number between 4 and 128"
  ∧ ∀ field, In field booleanFields →
      (validatePasswordRequest short_with_text_flag).2
      ≠ reject (field +:+ " must be a boolean value").
Proof.
  split; [by left |]. split; [| split].
  - split; vm_compute; discriminate.
  - by vm_compute.
  - intros field Hin.
    repeat (destruct Hin as [<- | Hin]; [vm_compute; discriminate |]).
    destruct Hin.
Qed.

(** C7, amended.  A request in which one of the five flags is present with
    a non-boolean value is answered with an HTTP 400; when it passes the
    length check, the error is "<field> must be a boolean value" for the
    first such flag in the order of [booleanFields]; and a request whose
    present flags are all booleans is never answered with a flag-type
    error. *)
Theorem flag_type_check (req : request) :
  ((∃ field, In field booleanFields ∧ non_boolean_flag (body req) field) →
   rejected (validatePasswordRequest req).2)
  ∧ ((∃ field, In field booleanFields ∧ non_boolean_flag (body req) field) →
     passes_range (get (body req) "length") 4 128 →
     ∃ earlier field later,
       booleanFields = (earlier ++ field :: later)%list
       ∧ (∀ f, In f earlier → ¬ non_boolean_flag (body req) f)
       ∧ non_boolean_flag (body req) field
       ∧ (validatePasswordRequest req).2
         = reject (field +:+ " must be a boolean value"))
  ∧ (flags_typed (body req) →
     ∀ field, In field booleanFields →
       (validatePasswordRequest req).2
       ≠ reject (field +:+ " must be a boolean value")).
Proof.
  pose proof (validatePasswordRequest_verdict req) as Hverdict.
  split; [| split].
  - intros (field & Hin & Hbad).
    destruct (verdict_rejected_or_next _ _ Hverdict) as [| Hnext]; [done |].
    rewrite Hnext in Hverdict.
    apply verdict_next_inv in Hverdict as (_ & Hflags & _).
    by destruct (Hflags field Hin).
  - intros (field & Hin & Hbad) Hlength.
    destruct Hverdict as [Hfails | earlier later first _ Hsplit Hpre Hfirst
                         | _ Hflags _ | _ Hflags _].
    + by destruct (passes_not_fails _ _ _ Hlength).
    + by exists earlier, first, later.
    + by destruct (Hflags field Hin).
    + by destruct (Hflags field Hin).
  - intros Hflags field Hin Hanswer. rewrite Hanswer in Hverdict.
    by apply verdict_flag_inv in Hverdict as [_ Hnot].
Qed.

(** The flag check at [{ length: 12, includeLower: null,
    excludeSimilar: 1 }]. *)
Lemma flag_type_check_witness :
  (∃ field, In field booleanFields
            ∧ non_boolean_flag (body with_null_flag) field)
  ∧ passes_range (get (body with_null_flag) "length") 4 128
  ∧ rejected (validatePasswordRequest with_null_flag).2.
Proof.
  assert (Hbad : ∃ field, In field booleanFields
                   ∧ non_boolean_flag (body with_null_flag) field).
  { exists "excludeSimilar". split; [vm_compute; tauto |].
    split; vm_compute; discriminate. }
  split; [exact Hbad |]. split.
  - apply (passes_range_fin 12 4 128). split; discriminate.
  - exact (proj1 (flag_type_check with_null_flag) Hbad).
Defined.

(** The first offender is reported: on [with_null_flag] both
    [includeLower] and [excludeSimilar] are ill-typed, and the answer names
    [includeLower]. *)
Example first_offender_named :
  (validatePasswordRequest with_null_flag).2
  = reject "includeLower must be a boolean value".
Proof. by vm_compute. Qed.

(** ** The passphrase request *)

(** C6.  [validatePassphraseRequest] answers with the word-count error
    exactly when [wordCount] is defined and not a number, below 2 or above
    10; it answers with the separator error exactly when the word count is
    let through and [separator] is defined and not a string or longer than
    5 code units; it answers with an HTTP 400 exactly when one of the two
    fields is refused; and it calls [next()] exactly when both fields are
    absent or within their constraints. *)
Theorem passphrase_checks_exact (req : request) :
  ((validatePassphraseRequest req).2
     = reject "Word count must be a number between 2 and 10"
   ↔ get (body req) "wordCount" ≠ VUndefined
     ∧ (typeof (get (body req) "wordCount") ≠ "number"
        ∨ js_lt (get (body req) "wordCount") 2
        ∨ js_gt (get (body req) "wordCount") 10))
  ∧ ((validatePassphraseRequest req).2
       = reject "Separator must be a string with maximum 5 characters"
     ↔ passes_range (get (body req) "wordCount") 2 10
       ∧ get (body req) "separator" ≠ VUndefined
       ∧ (typeof (get (body req) "separator") ≠ "string"
          ∨ ∃ s, get (body req) "separator" = VStr s ∧ (5 < length s)%nat))
  ∧ (rejected (validatePassphraseRequest req).2
     ↔ fails_range (get (body req) "wordCount") 2 10
       ∨ fails_separator (get (body req) "separator") 5)
  ∧ ((validatePassphraseRequest req).2 = Next
     ↔ passes_range (get (body req) "wordCount") 2 10
       ∧ passes_separator (get (body req) "separator") 5).
Proof.
  destruct (validatePassphraseRequest_cases req)
    as [[Hwords Hanswer] | [(Hwords & Hsep & Hanswer) | (Hwords & Hsep & Hanswer)]];
    rewrite Hanswer.
  - pose proof (λ H, passes_not_fails _ _ _ H Hwords) as Hnot.
    split; [| split; [| split]].
    + done.
    + split; [done | by intros [Hpasses _]].
    + split; [by left | by eexists].
    + split; [done | by intros [Hpasses _]].
  - assert (Hnot : ¬ passes_separator (get (body req) "separator") 5).
    { rewrite <- separator_check_false. apply separator_check_true in Hsep.
      congruence. }
    split; [| split; [| split]].
    + split; [done |]. intros Hfails.
      by destruct (passes_not_fails _ _ _ Hwords).
    + done.
    + split; [by right | by eexists].
    + split; [done | by intros [_ Hpasses]].
  - assert (Hnot : ¬ fails_separator (get (body req) "separator") 5).
    { rewrite <- separator_check_true. apply separator_check_false in Hsep.
      congruence. }
    split; [| split; [| split]].
    + split; [done |]. intros Hfails.
      by destruct (passes_not_fails _ _ _ Hwords).
    + split; [done | by intros [_ Hfails]].
    + split; [by intros [msg Hmsg] |].
      intros [Hfails | Hfails]; [| done].
      by destruct (passes_not_fails _ _ _ Hwords).
    + done.
Qed.

(** Both checks at [{ wordCount: 4, separator: "-" }]. *)
Lemma passphrase_checks_exact_witness :
  passes_range (get (body four_words) "wordCount") 2 10
  ∧ passes_separator (get (body four_words) "separator") 5
  ∧ (validatePassphraseRequest four_words).2 = Next.
Proof.
  assert (Hwords : passes_range (get (body four_words) "wordCount") 2 10).
  { apply (passes_range_fin 4 2 10). split; discriminate. }
  assert (Hsep : passes_separator (get (body four_words) "separator") 5).
  { right. exists (str "-"). split; [reflexivity | vm_compute; lia]. }
  split; [exact Hwords |]. split; [exact Hsep |].
  exact (proj2 (proj2 (proj2 (proj2 (passphrase_checks_exact four_words))))
           (conj Hwords Hsep)).
Defined.

(** C2, as the claim has it, fails: the body [{ separator: "" }] is passed
    on by [validatePassphraseRequest]. *)
Lemma empty_separator_accepted :
  get (body empty_separator) "separator" = VStr []
  ∧ (validatePassphraseRequest empty_separator).2 = Next
  ∧ ¬ rejected (validatePassphraseRequest empty_separator).2.
Proof.
  split; [by vm_compute |]. split; [by vm_compute |].
  intros [msg Hmsg]. vm_compute in Hmsg. discriminate Hmsg.
Qed.

(** C2, amended.  [validatePassphraseRequest] puts no lower bound on the
    separator: a request whose [separator] is the empty string is never
    answered with the separator error, and it is passed on whenever its
    [wordCount] is let through; only the upper bound of 5 is enforced. *)
Theorem separator_has_no_lower_bound (req : request) :
  get (body req) "separator" = VStr [] →
  (validatePassphraseRequest req).2
  ≠ reject "Separator must be a string with maximum 5 characters"
  ∧ (passes_range (get (body req) "wordCount") 2 10 →
     (validatePassphraseRequest req).2 = Next).
Proof.
  intros Hempty.
  assert (Hnot : ¬ fails_separator (get (body req) "separator") 5).
  { rewrite Hempty. intros [_ [Htype | (s & [= <-] & Hlong)]].
    - by destruct Htype.
    - simpl in Hlong. lia. }
  destruct (validatePassphraseRequest_cases req)
    as [[Hfails Hanswer] | [(_ & Hfails & _) | (_ & _ & Hanswer)]];
    [| done |]; rewrite Hanswer; split; try done.
  intros Hwords. by destruct (passes_not_fails _ _ _ Hwords).
Qed.

(** The separator check at [{ separator: "" }]. *)
Lemma separator_has_no_lower_bound_witness :
  get (body empty_separator) "separator" = VStr []
  ∧ (validatePassphraseRequest empty_separator).2
    ≠ reject "Separator must be a string with maximum 5 characters".
Proof.
  assert (Hempty : get (body empty_separator) "separator" = VStr [])
    by reflexivity.
  split; [exact Hempty |].
  exact (proj1 (separator_has_no_lower_bound empty_separator Hempty)).
Defined.

(** ** The strength request *)

(** C3.  [validateStrengthRequest] answers with an HTTP 400 whenever
    [password] is missing, not a string, the empty string, or longer than
    1000 code units, and it calls [next()] for every string of 1 to 1000
    code units; these are the only bodies it passes on.  The empty
    password is always refused. *)
Theorem strength_password_check (req : request) :
  (get (body req) "password" = VUndefined
   ∨ typeof (get (body req) "password") ≠ "string"
   ∨ get (body req) "password" = VStr []
   ∨ (∃ s, get (body req) "password" = VStr s ∧ (1000 < length s)%nat) →
   rejected (validateStrengthRequest req).2)
  ∧ (∀ s, get (body req) "password" = VStr s →
          (1 ≤ length s ≤ 1000)%nat →
          (validateStrengthRequest req).2 = Next)
  ∧ ((validateStrengthRequest req).2 = Next →
     ∃ s, get (body req) "password" = VStr s ∧ (1 ≤ length s ≤ 1000)%nat)
  ∧ (get (body req) "password" = VStr [] →
     rejected (validateStrengthRequest req).2).
Proof.
  assert (Hbad : get (body req) "password" = VUndefined
            ∨ typeof (get (body req) "password") ≠ "string"
            ∨ get (body req) "password" = VStr []
            ∨ (∃ s, get (body req) "password" = VStr s
                    ∧ (1000 < length s)%nat) →
          rejected (validateStrengthRequest req).2).
  { intros Hwhy.
    destruct (validateStrengthRequest_cases req)
      as [[_ ->] | [(_ & _ & ->) | [(s & _ & _ & ->)
         | (s & Hs & Hlen & _)]]]; try by eexists.
    rewrite Hs in Hwhy.
    destruct Hwhy as [? | [Htype | [[= ->] | (s' & [= <-] & Hlong)]]].
    - discriminate.
    - by destruct Htype.
    - simpl in Hlen. lia.
    - lia. }
  split; [done |]. split; [| split].
  - intros s Hs Hlen.
    destruct (validateStrengthRequest_cases req)
      as [[Hfalsy _] | [(_ & Htype & _) | [(s' & Hs' & Hlong & _)
         | (_ & _ & _ & Hnext)]]]; [| | | done].
    + rewrite Hs in Hfalsy. destruct s; [simpl in Hlen; lia | discriminate].
    + rewrite Hs in Htype. by destruct Htype.
    + rewrite Hs in Hs'. injection Hs' as <-. lia.
  - intros Hnext.
    destruct (validateStrengthRequest_cases req)
      as [[_ Hanswer] | [(_ & _ & Hanswer) | [(s & _ & _ & Hanswer)
         | (s & Hs & Hlen & _)]]]; [by rewrite Hanswer in Hnext .. |].
    by exists s.
  - intros Hempty. apply Hbad. auto.
Qed.

(** The password check at [{ password: "hunter2" }]. *)
Lemma strength_password_check_witness :
  get (body with_password) "password" = VStr (str "hunter2")
  ∧ (1 ≤ length (str "hunter2") ≤ 1000)%nat
  ∧ (validateStrengthRequest with_password).2 = Next.
Proof.
  assert (Hs : get (body with_password) "password" = VStr (str "hunter2"))
    by reflexivity.
  assert (Hlen : (1 ≤ length (str "hunter2") ≤ 1000)%nat)
    by (vm_compute; lia).
  split; [exact Hs |]. split; [exact Hlen |].
  exact (proj1 (proj2 (strength_password_check with_password))
           (str "hunter2") Hs Hlen).
Defined.

(** C8.  No request is answered with "Password cannot be empty": the
    empty string is falsy, so it is already answered with "Password is
    required". *)
Theorem empty_branch_unreachable (req : request) :
  (validateStrengthRequest req).2 ≠ reject "Password cannot be empty"
  ∧ (get (body req) "password" = VStr [] →
     (validateStrengthRequest req).2 = reject "Password is required").
Proof.
  destruct (validateStrengthRequest_cases req)
    as [[Hfalsy Hanswer] | [(Htruthy & _ & Hanswer)
       | [(s & Hs & Hlong & Hanswer) | (s & Hs & Hlen & Hanswer)]]];
    rewrite Hanswer; (split; [done |]); intros Hempty; try done.
  - rewrite Hempty in Htruthy. discriminate Htruthy.
  - rewrite Hempty in Hs. injection Hs as <-. simpl in Hlong. lia.
  - rewrite Hempty in Hs. injection Hs as <-. simpl in Hlen. lia.
Qed.

(** The password check at [{ password: "" }]. *)
Lemma empty_branch_unreachable_witness :
  get (body empty_password) "password" = VStr []
  ∧ (validateStrengthRequest empty_password).2
    = reject "Password is required".
Proof.
  assert (Hempty : get (body empty_password) "password" = VStr [])
    by reflexivity.
  split; [exact Hempty |].
  exact (proj2 (empty_branch_unreachable empty_password) Hempty).
Defined.

(** ** Frame: what validation leaves alone *)

(** C9.  Each of the four validators returns the request it was given:
    [req.body] is the same before and after, whether the validator answers
    or calls [next()], so the next handler sees the body as received and
    no default has been installed. *)
Theorem validators_leave_request (req : request) :
  (validatePasswordRequest req).1 = req
  ∧ (validateBatchRequest req).1 = req
  ∧ (validateStrengthRequest req).1 = req
  ∧ (validatePassphraseRequest req).1 = req.
Proof.
  assert (Hpassword : (validatePasswordRequest req).1 = req).
  { unfold validatePasswordRequest.
    destruct (negb (is_undefined _) && not_number_within _ 4 128); [done |].
    destruct (find _ booleanFields); [done |].
    by destruct (negb _). }
  split; [done |]. split; [| split].
  - unfold validateBatchRequest.
    by destruct (negb (is_undefined _) && not_number_within _ 1 20).
  - unfold validateStrengthRequest.
    destruct (negb (ToBoolean _)); [done |].
    destruct (get (body req) "password"); try done.
    destruct (Nat.eqb _ 0); [done |]. by destruct (Nat.ltb 1000 _).
  - unfold validatePassphraseRequest.
    destruct (negb (is_undefined _) && not_number_within _ 2 10); [done |].
    by destruct (negb (is_undefined _) && not_string_upto _ 5).
Qed.

(** ** Omitted fields *)

(** C10.  An omitted optional field is not range-checked: without
    [length], [validatePasswordRequest] never answers with the length
    error; without [count], [validateBatchRequest] never answers with the
    count error and decides as [validatePasswordRequest] does; without
    [wordCount], respectively [separator], [validatePassphraseRequest]
    never answers with the word-count, respectively separator, error, and
    without both it calls [next()]. *)
Theorem omitted_fields_unchecked (req : request) :
  (get (body req) "length" = VUndefined →
   (validatePasswordRequest req).2
   ≠ reject "Length must be a number between 4 and 128")
  ∧ (get (body req) "count" = VUndefined →
     (validateBatchRequest req).2
     ≠ reject "Count must be a number between 1 and 20"
     ∧ validateBatchRequest req = validatePasswordRequest req)
  ∧ (get (body req) "wordCount" = VUndefined →
     (validatePassphraseRequest req).2
     ≠ reject "Word count must be a number between 2 and 10")
  ∧ (get (body req) "separator" = VUndefined →
     (validatePassphraseRequest req).2
     ≠ reject "Separator must be a string with maximum 5 characters")
  ∧ (get (body req) "wordCount" = VUndefined →
     get (body req) "separator" = VUndefined →
     (validatePassphraseRequest req).2 = Next).
Proof.
  pose proof (validatePasswordRequest_verdict req) as Hverdict.
  split; [| split; [| split; [| split]]].
  - intros Habsent Hanswer. rewrite Hanswer in Hverdict.
    by apply verdict_length_inv in Hverdict as [Hdefined _].
  - intros Habsent.
    destruct (validateBatchRequest_cases req) as [[[Hdefined _] _] | [_ Hsame]];
      [done |].
    split; [| done]. rewrite Hsame. intros Hanswer.
    rewrite Hanswer in Hverdict. by apply verdict_count_inv in Hverdict.
  - intros Habsent.
    destruct (validatePassphraseRequest_cases req)
      as [[[Hdefined _] _] | [(_ & _ & ->) | (_ & _ & ->)]]; done.
  - intros Habsent.
    destruct (validatePassphraseRequest_cases req)
      as [[_ ->] | [(_ & [Hdefined _] & _) | (_ & _ & ->)]]; done.
  - intros Hwords Hsep.
    destruct (validatePassphraseRequest_cases req)
      as [[[Hdefined _] _] | [(_ & [Hdefined _] & _) | (_ & _ & Hnext)]];
      done.
Qed.

(** The passphrase checks at [{}]. *)
Lemma omitted_fields_unchecked_witness :
  get (body empty_body) "wordCount" = VUndefined
  ∧ get (body empty_body) "separator" = VUndefined
  ∧ (validatePassphraseRequest empty_body).2 = Next.
Proof.
  assert (Hwords : get (body empty_body) "wordCount" = VUndefined)
    by reflexivity.
  assert (Hsep : get (body empty_body) "separator" = VUndefined)
    by reflexivity.
  split; [exact Hwords |]. split; [exact Hsep |].
  exact (proj2 (proj2 (proj2 (proj2 (omitted_fields_unchecked empty_body))))
           Hwords Hsep).
Defined.

(** ** Further properties of the validators *)

Section Acceptance.

Implicit Types (v : value) (b : jsbody) (req : request).

Lemma ToBoolean_false v : ToBoolean v = false ↔ falsy v.
Proof.
  unfold falsy. split.
  - destruct v as [| | [] | [| | | q] | [] | |]; simpl; intros H;
      try discriminate; auto 10.
    apply negb_false_iff, Qeq_bool_iff in H. eauto 10.
  - intros [-> | [-> | [-> | [-> | [(q & -> & Hq) | ->]]]]]; try done.
    simpl. by apply negb_false_iff, Qeq_bool_iff.
Qed.

(** What a range check lets through, number by number. *)
Lemma passes_range_between v lo hi :
  passes_range v lo hi ↔ absent_or_between v lo hi.
Proof.
  unfold passes_range, absent_or_between. split.
  - intros [-> | (Htype & Hlt & Hgt)]; [by left |].
    apply typeof_number in Htype as [[| | | q] ->].
    + auto.
    + destruct Hgt. by eexists.
    + destruct Hlt. by eexists.
    + right; right. exists q. split; [done |].
      rewrite js_lt_fin in Hlt. rewrite js_gt_fin in Hgt.
      split; by apply Qnot_lt_le.
  - intros [-> | [-> | (q & -> & Hbounds)]]; [by left | |].
    + right. split; [done |].
      split; [apply (js_nan_unordered lo) | apply (js_nan_unordered hi)].
    + by apply passes_range_fin.
Qed.

Lemma flags_typed_values b :
  flags_typed b
  ↔ ∀ field, In field booleanFields →
      get b field = VUndefined ∨ ∃ c, get b field = VBool c.
Proof.
  unfold flags_typed, non_boolean_flag.
  split; intros H field Hin; specialize (H field Hin).
  - destruct (get b field) eqn:Hfield; eauto; destruct H; by split.
  - intros [Hdefined Htype]. destruct H as [H | [c H]]; [done |].
    rewrite H in Htype. by destruct Htype.
Qed.

Lemma some_type_selected b :
  ¬ no_type_selected b
  ↔ get b "includeUpper" ≠ VBool false
    ∨ get b "includeLower" ≠ VBool false
    ∨ get b "includeNumbers" ≠ VBool false
    ∨ get b "includeSymbols" = VBool true.
Proof.
  rewrite <- hasAtLeastOneType_false, not_false_iff_true.
  rewrite !orb_true_iff, !negb_true_iff, <- !not_true_iff_false.
  rewrite !strict_eq_bool_true. tauto.
Qed.

Lemma validatePasswordRequest_next req :
  (validatePasswordRequest req).2 = Next
  ↔ passes_range (get (body req) "length") 4 128
    ∧ flags_typed (body req)
    ∧ ¬ no_type_selected (body req).
Proof.
  pose proof (validatePasswordRequest_verdict req) as Hverdict.
  split.
  - intros Hnext. rewrite Hnext in Hverdict. by apply verdict_next_inv.
  - intros (Hlength & Hflags & Hsome).
    destruct Hverdict as [Hfails | earlier later field _ Hsplit _ Hbad | |];
      [| | done | done].
    + by destruct (passes_not_fails _ _ _ Hlength).
    + destruct (Hflags field); [| done]. by eapply in_booleanFields_middle.
Qed.

End Acceptance.

(** X1.  [validatePasswordRequest] calls [next()] exactly when [length]
    is absent, [NaN], or a finite number between 4 and 128 (whole or not),
    every present flag of [booleanFields] is a boolean, and one of
    [includeUpper], [includeLower], [includeNumbers] is not [false] or
    [includeSymbols] is [true]. *)
Theorem password_request_accepted (req : request) :
  (validatePasswordRequest req).2 = Next
  ↔ absent_or_between (get (body req) "length") 4 128
    ∧ (∀ field, In field booleanFields →
         get (body req) field = VUndefined
         ∨ ∃ c, get (body req) field = VBool c)
    ∧ (get (body req) "includeUpper" ≠ VBool false
       ∨ get (body req) "includeLower" ≠ VBool false
       ∨ get (body req) "includeNumbers" ≠ VBool false
       ∨ get (body req) "includeSymbols" = VBool true).
Proof.
  by rewrite validatePasswordRequest_next, passes_range_between,
    flags_typed_values, some_type_selected.
Qed.

(** A length of 4.5 passes. *)
Lemma password_request_accepted_witness :
  (validatePasswordRequest fractional_length).2 = Next.
Proof.
  apply (proj2 (password_request_accepted fractional_length)).
  split; [| split].
  - right; right. exists (9 # 2)%Q. split; [reflexivity |].
    split; discriminate.
  - intros field Hin.
    repeat (destruct Hin as [<- | Hin];
            [vm_compute; eauto |]).
    destruct Hin.
  - right; right; right. reflexivity.
Defined.

(** X2.  [validateBatchRequest] calls [next()] exactly when [count] is
    absent, [NaN], or a finite number between 1 and 20, and the body meets
    the three conditions of [validatePasswordRequest] on [length], the
    flags and the selected types. *)
Theorem batch_request_accepted (req : request) :
  (validateBatchRequest req).2 = Next
  ↔ absent_or_between (get (body req) "count") 1 20
    ∧ absent_or_between (get (body req) "length") 4 128
    ∧ (∀ field, In field booleanFields →
         get (body req) field = VUndefined
         ∨ ∃ c, get (body req) field = VBool c)
    ∧ (get (body req) "includeUpper" ≠ VBool false
       ∨ get (body req) "includeLower" ≠ VBool false
       ∨ get (body req) "includeNumbers" ≠ VBool false
       ∨ get (body req) "includeSymbols" = VBool true).
Proof.
  rewrite <- !passes_range_between, <- flags_typed_values,
    <- some_type_selected, <- validatePasswordRequest_next.
  destruct (validateBatchRequest_cases req)
    as [[Hfails Hanswer] | [Hpasses Hsame]].
  - rewrite Hanswer. split; [done |]. intros [Hpasses _].
    by destruct (passes_not_fails _ _ _ Hpasses).
  - rewrite Hsame. tauto.
Qed.

(** The empty body is a valid batch request. *)
Lemma batch_request_accepted_witness :
  (validateBatchRequest empty_body).2 = Next.
Proof.
  apply (proj2 (batch_request_accepted empty_body)).
  split; [by left |]. split; [by left |]. split.
  - intros field Hin. left.
    repeat (destruct Hin as [<- | Hin]; [reflexivity |]).
    destruct Hin.
  - left. vm_compute. discriminate.
Defined.

(** [find] only looks at the test on the elements of the list. *)
Lemma find_agree {A} (p q : A → bool) (l : list A) :
  (∀ x, In x l → p x = q x) → find p l = find q l.
Proof.
  induction l as [| x l IH]; intros H; [done |]. simpl.
  rewrite (H x (or_introl eq_refl)), IH; [done |].
  intros y Hy. apply H. by right.
Qed.

(** X3.  Each validator decides on the fields it reads and on nothing
    else: two requests whose bodies agree on [length] and the five flags
    get the same answer from [validatePasswordRequest]; with [count] in
    addition, from [validateBatchRequest]; on [password], from
    [validateStrengthRequest]; on [wordCount] and [separator], from
    [validatePassphraseRequest]. *)
Theorem validators_read_their_fields_only (r1 r2 : request) :
  (agree_on ("length" :: booleanFields) (body r1) (body r2) →
   (validatePasswordRequest r1).2 = (validatePasswordRequest r2).2)
  ∧ (agree_on ("count" :: "length" :: booleanFields) (body r1) (body r2) →
     (validateBatchRequest r1).2 = (validateBatchRequest r2).2)
  ∧ (agree_on ["password"] (body r1) (body r2) →
     (validateStrengthRequest r1).2 = (validateStrengthRequest r2).2)
  ∧ (agree_on ["wordCount"; "separator"] (body r1) (body r2) →
     (validatePassphraseRequest r1).2 = (validatePassphraseRequest r2).2).
Proof.
  assert (Hpassword :
    agree_on ("length" :: booleanFields) (body r1) (body r2) →
    (validatePasswordRequest r1).2 = (validatePasswordRequest r2).2).
  { intros Hagree. unfold validatePasswordRequest.
    assert (Hfind : find (not_boolean (body r1)) booleanFields
                    = find (not_boolean (body r2)) booleanFields).
    { apply find_agree. intros f Hf. unfold not_boolean.
      by rewrite (Hagree f (or_intror Hf)). }
    rewrite Hfind. clear Hfind.
    rewrite (Hagree "length"), (Hagree "includeUpper"),
      (Hagree "includeLower"), (Hagree "includeNumbers"),
      (Hagree "includeSymbols") by (simpl; tauto).
    destruct (negb _ && not_number_within _ 4 128); [done |].
    destruct (find _ booleanFields); [done |]. by destruct (negb _). }
  split; [done |]. split; [| split].
  - intros Hagree. unfold validateBatchRequest.
    rewrite (Hagree "count") by (simpl; tauto).
    destruct (negb _ && not_number_within _ 1 20); [done |].
    apply Hpassword. intros k Hk. apply Hagree. by right.
  - intros Hagree. unfold validateStrengthRequest.
    rewrite (Hagree "password") by (simpl; tauto).
    destruct (negb _); [done |].
    destruct (get (body r2) "password"); try done.
    destruct (Nat.eqb _ 0); [done |]. by destruct (Nat.ltb 1000 _).
  - intros Hagree. unfold validatePassphraseRequest.
    rewrite (Hagree "wordCount"), (Hagree "separator") by (simpl; tauto).
    destruct (negb _ && not_number_within _ 2 10); [done |].
    by destruct (negb _ && not_string_upto _ 5).
Qed.

(** A password field makes no difference to [validatePassphraseRequest]. *)
Lemma validators_read_their_fields_only_witness :
  (validatePassphraseRequest empty_body).2
  = (validatePassphraseRequest with_password).2.
Proof.
  apply (proj2 (proj2 (proj2
           (validators_read_their_fields_only empty_body with_password)))).
  intros k Hk.
  repeat (destruct Hk as [<- | Hk]; [reflexivity |]).
  destruct Hk.
Defined.

(** X4.  A validator answers with [next()] or with an HTTP 400 whose
    payload has [success: false] and one of its own fixed messages; the
    status is never another one and no other message is ever sent. *)
Theorem validators_answers (req : request) :
  ((validatePasswordRequest req).2 = Next
   ∨ (validatePasswordRequest req).2
     = reject "Length must be a number between 4 and 128"
   ∨ (∃ field, In field booleanFields
               ∧ (validatePasswordRequest req).2
                 = reject (field +:+ " must be a boolean value"))
   ∨ (validatePasswordRequest req).2
     = reject "At least one character type must be selected")
  ∧ ((validateBatchRequest req).2
       = reject "Count must be a number between 1 and 20"
     ∨ (validateBatchRequest req).2 = (validatePasswordRequest req).2)
  ∧ ((validateStrengthRequest req).2 = Next
     ∨ (validateStrengthRequest req).2 = reject "Password is required"
     ∨ (validateStrengthRequest req).2 = reject "Password must be a string"
     ∨ (validateStrengthRequest req).2
       = reject "Password too long for analysis (max 1000 characters)")
  ∧ ((validatePassphraseRequest req).2 = Next
     ∨ (validatePassphraseRequest req).2
       = reject "Word count must be a number between 2 and 10"
     ∨ (validatePassphraseRequest req).2
       = reject "Separator must be a string with maximum 5 characters").
Proof.
  split; [| split; [| split]].
  - destruct (validatePasswordRequest_verdict req)
      as [| earlier later field _ Hsplit _ _ | |]; auto.
    right; right; left. exists field.
    split; [by eapply in_booleanFields_middle | done].
  - destruct (validateBatchRequest_cases req) as [[_ ->] | [_ ->]]; auto.
  - destruct (validateStrengthRequest_cases req)
      as [[_ ->] | [(_ & _ & ->) | [(s & _ & _ & ->) | (s & _ & _ & ->)]]];
      auto.
  - destruct (validatePassphraseRequest_cases req)
      as [[_ ->] | [(_ & _ & ->) | (_ & _ & ->)]]; auto.
Qed.

(** X5.  A JSON array as body: it has a [length] of its own and no other
    field, so [validatePasswordRequest] and [validateBatchRequest] pass it
    on exactly when it has 4 to 128 elements and answer with the length
    error otherwise, [validateStrengthRequest] always answers "Password is
    required", and [validatePassphraseRequest] always passes it on. *)
Theorem array_bodies (elems : list value) :
  ((4 ≤ length elems ≤ 128)%nat →
   (validatePasswordRequest (Request (BArr elems))).2 = Next)
  ∧ (¬ (4 ≤ length elems ≤ 128)%nat →
     (validatePasswordRequest (Request (BArr elems))).2
     = reject "Length must be a number between 4 and 128")
  ∧ (validateBatchRequest (Request (BArr elems))).2
    = (validatePasswordRequest (Request (BArr elems))).2
  ∧ (validateStrengthRequest (Request (BArr elems))).2
    = reject "Password is required"
  ∧ (validatePassphraseRequest (Request (BArr elems))).2 = Next.
Proof.
  assert (Hlength : get (BArr elems) "length"
                    = VNum (Fin (inject_Z (Z.of_nat (length elems)))))
    by reflexivity.
  split; [| split; [| split; [| split]]]; try reflexivity.
  - intros Hbounds. apply validatePasswordRequest_next. simpl body.
    split; [| split].
    + rewrite Hlength. apply passes_range_fin.
      rewrite <- !Zle_Qle. lia.
    + intros field Hin [Hdefined _].
      repeat (destruct Hin as [<- | Hin]; [by destruct Hdefined |]).
      destruct Hin.
    + intros (Hupper & _). discriminate Hupper.
  - intros Hbounds. apply length_check_fires. simpl body.
    rewrite Hlength. split; [done |]. right.
    rewrite js_lt_fin, js_gt_fin, <- !Zlt_Qlt. lia.
Qed.

(** [[null, null, null, null]] is let through. *)
Lemma array_bodies_witness :
  (4 ≤ length [VNull; VNull; VNull; VNull] ≤ 128)%nat
  ∧ (validatePasswordRequest
       (Request (BArr [VNull; VNull; VNull; VNull]))).2 = Next.
Proof.
  assert (Hbounds : (4 ≤ length [VNull; VNull; VNull; VNull] ≤ 128)%nat)
    by (simpl; lia).
  split; [exact Hbounds |].
  exact (proj1 (array_bodies [VNull; VNull; VNull; VNull]) Hbounds).
Defined.

(** X6.  Which message [validateStrengthRequest] picks: "Password is
    required" exactly for a falsy [password] ([undefined], [null],
    [false], [0], [NaN] or the empty string); "Password must be a string"
    exactly for a truthy value that is not a string; the too-long message
    exactly for a string of more than 1000 code units. *)
Theorem strength_messages (req : request) :
  ((validateStrengthRequest req).2 = reject "Password is required"
   ↔ falsy (get (body req) "password"))
  ∧ ((validateStrengthRequest req).2 = reject "Password must be a string"
     ↔ ¬ falsy (get (body req) "password")
       ∧ typeof (get (body req) "password") ≠ "string")
  ∧ ((validateStrengthRequest req).2
       = reject "Password too long for analysis (max 1000 characters)"
     ↔ ∃ s, get (body req) "password" = VStr s ∧ (1000 < length s)%nat).
Proof.
  rewrite <- !ToBoolean_false.
  destruct (validateStrengthRequest_cases req)
    as [[Hfalsy ->] | [(Htruthy & Htype & ->)
       | [(s & Hs & Hlong & ->) | (s & Hs & Hlen & ->)]]].
  - split; [done |]. split; (split; [done |]).
    + by intros [Hnot _].
    + intros (s & Hs & Hlong). rewrite Hs in Hfalsy.
      destruct s; [simpl in Hlong; lia | discriminate].
  - split; [| split].
    + split; [done | congruence].
    + split; [| done]. intros _. split; [congruence | done].
    + split; [done |]. intros (s & Hs & _). rewrite Hs in Htype.
      by destruct Htype.
  - assert (Htruthy : ToBoolean (get (body req) "password") = true).
    { rewrite Hs. destruct s; [simpl in Hlong; lia | done]. }
    split; [| split].
    + split; [done | congruence].
    + split; [done |]. intros [_ Htype]. rewrite Hs in Htype.
      by destruct Htype.
    + split; [by exists s | done].
  - assert (Htruthy : ToBoolean (get (body req) "password") = true).
    { rewrite Hs. destruct s; [simpl in Hlen; lia | done]. }
    split; [| split].
    + split; [done | congruence].
    + split; [done |]. intros [_ Htype]. rewrite Hs in Htype.
      by destruct Htype.
    + split; [done |]. intros (s' & Hs' & Hlong).
      rewrite Hs in Hs'. injection Hs' as <-. lia.
Qed.

(** [{ password: 0 }] is answered "Password is required". *)
Lemma strength_messages_witness :
  falsy (get (body zero_password) "password")
  ∧ (validateStrengthRequest zero_password).2
    = reject "Password is required".
Proof.
  assert (Hfalsy : falsy (get (body zero_password) "password")).
  { right; right; right; right; left. exists 0%Q. split; reflexivity. }
  split; [exact Hfalsy |].
  exact (proj2 (proj1 (strength_messages zero_password)) Hfalsy).
Defined.

(** ** The error handler *)

Section ErrorHandler.

Implicit Types (env : ambient) (err : gmap jsstring value) (req : incoming)
  (v : value).

Lemma strict_eq_str_true v (s : string) :
  strict_eq_str v s = true ↔ v = VStr (str s).
Proof.
  destruct v; simpl; try (split; discriminate).
  rewrite bool_decide_eq_true. split; congruence.
Qed.

Lemma strict_eq_str_false v (s : string) :
  strict_eq_str v s = false ↔ v ≠ VStr (str s).
Proof. rewrite <- strict_eq_str_true. symmetry. apply not_true_iff_false. Qed.

Lemma has_true err (k : string) : has err k = true ↔ is_Some (err !! str k).
Proof. apply bool_decide_eq_true. Qed.

(** Writing one property leaves the others as they are. *)
Lemma prop_insert_ne err (k k' : string) v :
  str k ≠ str k' → prop (<[str k := v]> err) k' = prop err k'.
Proof. intros Hne. unfold prop. by rewrite lookup_insert_ne. Qed.

Lemma has_insert_ne err (k k' : string) v :
  str k ≠ str k' → has (<[str k := v]> err) k' = has err k'.
Proof. intros Hne. unfold has. by rewrite lookup_insert_ne. Qed.

Lemma prop_hidden err (k : string) (message stack : value) :
  str k ≠ str "message" → str k ≠ str "stack" →
  prop (<[str "message" := message]> (<[str "stack" := stack]> err)) k
  = prop err k.
Proof. intros Hm Hs. by rewrite !prop_insert_ne. Qed.

(** The first four marks, as the handler tests them. *)
Lemma marked_syntax err :
  strict_eq_str (prop err "name") "SyntaxError"
  && strict_eq_num (prop err "status") 400 && has err "body" = true
  ↔ prop err "name" = VStr (str "SyntaxError")
    ∧ strict_eq_num (prop err "status") 400 = true
    ∧ is_Some (err !! str "body").
Proof.
  rewrite !andb_true_iff, strict_eq_str_true, has_true. tauto.
Qed.

Lemma unmarked_tests err :
  unmarked err
  ↔ strict_eq_str (prop err "name") "ValidationError" = false
    ∧ strict_eq_str (prop err "name") "SyntaxError"
      && strict_eq_num (prop err "status") 400 && has err "body" = false
    ∧ strict_eq_str (prop err "code") "LIMIT_FILE_SIZE" = false
    ∧ strict_eq_str (prop err "type") "entity.parse.failed" = false
    ∧ strict_eq_num (prop err "status") 429 = false.
Proof.
  unfold unmarked.
  by rewrite !strict_eq_str_false, <- (not_true_iff_false (_ && _)),
    marked_syntax.
Qed.

(** A status cannot be both 400 and 429. *)
Lemma strict_eq_num_400_429 v :
  strict_eq_num v 400 = true → strict_eq_num v 429 = true → False.
Proof.
  destruct v as [| | | [| | | q] | | |]; simpl; try discriminate.
  rewrite !Qeq_bool_iff. intros H400 H429. rewrite H400 in H429.
  discriminate H429.
Qed.

End ErrorHandler.

(** X7.  With [NODE_ENV] set to "production" the handler never sends a
    [stack] member, and unless the error is named "ValidationError" its
    answer does not depend on [err.message] or [err.stack] at all: an
    error with other values for the two gets the same status and
    payload. *)
Theorem production_hides_message_and_stack (env : ambient)
    (err : gmap jsstring value) (req : incoming) :
  NODE_ENV env = VStr (str "production") →
  (∀ v, ¬ In ("stack", v) (json (errorHandler env err req).2))
  ∧ (prop err "name" ≠ VStr (str "ValidationError") →
     ∀ message stack : value,
       (errorHandler env
          (<[str "message" := message]> (<[str "stack" := stack]> err))
          req).2
       = (errorHandler env err req).2).
Proof.
  intros Hproduction.
  assert (Htest : strict_eq_str (NODE_ENV env) "production" = true)
    by (by apply strict_eq_str_true).
  split.
  - intros v. unfold errorHandler. rewrite Htest. cbn [negb].
    destruct (strict_eq_str (prop err "name") "ValidationError");
      [simpl; intuition congruence |].
    destruct (strict_eq_str (prop err "name") "SyntaxError"
              && strict_eq_num (prop err "status") 400 && has err "body");
      [simpl; intuition congruence |].
    destruct (strict_eq_str (prop err "code") "LIMIT_FILE_SIZE");
      [simpl; intuition congruence |].
    destruct (strict_eq_str (prop err "type") "entity.parse.failed");
      [simpl; intuition congruence |].
    destruct (strict_eq_num (prop err "status") 429);
      simpl; intuition congruence.
  - intros Hname message stack. unfold errorHandler.
    rewrite Htest. cbn [negb].
    rewrite (prop_hidden _ "name"), (prop_hidden _ "status"),
      (prop_hidden _ "code"), (prop_hidden _ "type"),
      (prop_hidden _ "retryAfter") by done.
    rewrite !(has_insert_ne _ _ "body") by done.
    apply strict_eq_str_false in Hname. rewrite Hname.
    destruct (strict_eq_str (prop err "name") "SyntaxError"
              && strict_eq_num (prop err "status") 400 && has err "body");
      [done |].
    destruct (strict_eq_str (prop err "code") "LIMIT_FILE_SIZE"); [done |].
    destruct (strict_eq_str (prop err "type") "entity.parse.failed");
      [done |].
    by destruct (strict_eq_num (prop err "status") 429).
Qed.

(** A plain error in production: changing its message and stack changes
    nothing in the answer. *)
Lemma production_hides_message_and_stack_witness :
  NODE_ENV production = VStr (str "production")
  ∧ ∀ v, ¬ In ("stack", v)
             (json (errorHandler production plain_failure some_request).2).
Proof.
  assert (Hproduction : NODE_ENV production = VStr (str "production"))
    by reflexivity.
  split; [exact Hproduction |].
  exact (proj1 (production_hides_message_and_stack production plain_failure
                  some_request Hproduction)).
Defined.

(** X8.  Every answer of the handler has a truthy status and a payload
    that starts with [success: false]; the status is 400, 413 or 429 for
    a marked error, and for an error with none of the marks it is
    [err.status] when that is truthy and 500 when it is falsy (absent,
    [null], 0, ...). *)
Theorem error_status (env : ambient) (err : gmap jsstring value)
    (req : incoming) :
  ToBoolean (statusCode (errorHandler env err req).2) = true
  ∧ head (json (errorHandler env err req).2) = Some ("success", VBool false)
  ∧ (¬ unmarked err →
     statusCode (errorHandler env err req).2 = VNum (lit 400)
     ∨ statusCode (errorHandler env err req).2 = VNum (lit 413)
     ∨ statusCode (errorHandler env err req).2 = VNum (lit 429))
  ∧ (unmarked err →
     (¬ falsy (prop err "status") →
      statusCode (errorHandler env err req).2 = prop err "status")
     ∧ (falsy (prop err "status") →
        statusCode (errorHandler env err req).2 = VNum (lit 500))).
Proof.
  rewrite unmarked_tests, <- ToBoolean_false. unfold errorHandler, js_or.
  destruct (strict_eq_str (prop err "name") "ValidationError");
    [by intuition |].
  destruct (strict_eq_str (prop err "name") "SyntaxError"
            && strict_eq_num (prop err "status") 400 && has err "body");
    [by intuition |].
  destruct (strict_eq_str (prop err "code") "LIMIT_FILE_SIZE");
    [by intuition |].
  destruct (strict_eq_str (prop err "type") "entity.parse.failed");
    [by intuition |].
  destruct (strict_eq_num (prop err "status") 429); [by intuition |].
  destruct (ToBoolean (prop err "status")) eqn:Hstatus; simpl;
    by intuition.
Qed.

(** A plain error without a status is answered with 500. *)
Lemma error_status_witness :
  unmarked plain_failure
  ∧ falsy (prop plain_failure "status")
  ∧ statusCode (errorHandler production plain_failure some_request).2
    = VNum (lit 500).
Proof.
  assert (Hunmarked : unmarked plain_failure).
  { apply unmarked_tests. by vm_compute. }
  assert (Hfalsy : falsy (prop plain_failure "status")) by (by left).
  split; [exact Hunmarked |]. split; [exact Hfalsy |].
  exact (proj2 (proj2 (proj2 (proj2
           (error_status production plain_failure some_request)))
           Hunmarked) Hfalsy).
Defined.

(** Two answers that differ in their status or their members. *)
Ltac clash :=
  match goal with
  | H : Response _ _ = Response _ _ |- _ => vm_compute in H; discriminate H
  end.

(** X9.  The marks are tested in a fixed order.  An error named
    "ValidationError" is answered with 400 "Validation Error" and its
    message as [details], whatever else it carries.  An error named
    "SyntaxError" with status 400 and a [body] property is answered with
    400 "Invalid JSON in request body", also when its [code] or [type]
    would select a later answer; so "Invalid request format" is sent only
    for an [entity.parse.failed] error that is not such a syntax error,
    and a status of 429 gets the rate-limit answer only if no earlier mark
    is present. *)
Theorem error_marks_in_order (env : ambient) (err : gmap jsstring value)
    (req : incoming) :
  (prop err "name" = VStr (str "ValidationError") →
   (errorHandler env err req).2
   = Response (VNum (lit 400))
       [("success", VBool false); ("error", VStr (str "Validation Error"));
        ("details", prop err "message")])
  ∧ (prop err "name" = VStr (str "SyntaxError") →
     strict_eq_num (prop err "status") 400 = true →
     is_Some (err !! str "body") →
     (errorHandler env err req).2
     = Response (VNum (lit 400))
         [("success", VBool false);
          ("error", VStr (str "Invalid JSON in request body"))])
  ∧ ((errorHandler env err req).2
     = Response (VNum (lit 400))
         [("success", VBool false);
          ("error", VStr (str "Invalid request format"))]
     ↔ prop err "name" ≠ VStr (str "ValidationError")
       ∧ ¬ (prop err "name" = VStr (str "SyntaxError")
            ∧ strict_eq_num (prop err "status") 400 = true
            ∧ is_Some (err !! str "body"))
       ∧ prop err "code" ≠ VStr (str "LIMIT_FILE_SIZE")
       ∧ prop err "type" = VStr (str "entity.parse.failed"))
  ∧ ((errorHandler env err req).2
     = Response (VNum (lit 429))
         [("success", VBool false);
          ("error", VStr (str "Too many requests. Please try again later."));
          ("retryAfter", prop err "retryAfter")]
     ↔ prop err "name" ≠ VStr (str "ValidationError")
       ∧ prop err "code" ≠ VStr (str "LIMIT_FILE_SIZE")
       ∧ prop err "type" ≠ VStr (str "entity.parse.failed")
       ∧ strict_eq_num (prop err "status") 429 = true).
Proof.
  pose proof (strict_eq_str_true (prop err "name") "ValidationError") as Hv.
  pose proof (marked_syntax err) as Hs.
  pose proof (strict_eq_str_true (prop err "code") "LIMIT_FILE_SIZE") as Hc.
  pose proof (strict_eq_str_true (prop err "type") "entity.parse.failed")
    as Ht.
  pose proof (strict_eq_num_400_429 (prop err "status")) as Hstatus.
  assert (Hnames : prop err "name" = VStr (str "ValidationError") →
                   prop err "name" = VStr (str "SyntaxError") → False).
  { intros ->. discriminate. }
  unfold errorHandler.
  destruct (strict_eq_str (prop err "name") "ValidationError").
  { simpl. intuition (try congruence); try clash. }
  destruct (strict_eq_str (prop err "name") "SyntaxError"
            && strict_eq_num (prop err "status") 400 && has err "body").
  { simpl. intuition (try congruence); try clash. }
  destruct (strict_eq_str (prop err "code") "LIMIT_FILE_SIZE").
  { simpl. intuition (try congruence); try clash. }
  destruct (strict_eq_str (prop err "type") "entity.parse.failed").
  { simpl. intuition (try congruence); try clash. }
  destruct (strict_eq_num (prop err "status") 429);
    simpl; intuition (try congruence); try clash.
Qed.

(** A JSON parse failure of the body parser, which also has the type
    [entity.parse.failed], is answered as invalid JSON. *)
Lemma error_marks_in_order_witness :
  prop parse_failure "name" = VStr (str "SyntaxError")
  ∧ strict_eq_num (prop parse_failure "status") 400 = true
  ∧ is_Some (parse_failure !! str "body")
  ∧ (errorHandler production parse_failure some_request).2
    = Response (VNum (lit 400))
        [("success", VBool false);
         ("error", VStr (str "Invalid JSON in request body"))].
Proof.
  assert (Hname : prop parse_failure "name" = VStr (str "SyntaxError"))
    by reflexivity.
  assert (Hstatus : strict_eq_num (prop parse_failure "status") 400 = true)
    by reflexivity.
  assert (Hbody : is_Some (parse_failure !! str "body"))
    by (by eexists).
  split; [exact Hname |]. split; [exact Hstatus |]. split; [exact Hbody |].
  exact (proj1 (proj2
           (error_marks_in_order production parse_failure some_request))
           Hname Hstatus Hbody).
Defined.

(** ** The security headers *)

Section SecurityHeaders.

Variable canonical : string → string.

Implicit Types (headers : gmap string (string * string)) (name : string).


Lemma setHeader_again name value value' headers :
  setHeader canonical name value
    (setHeader canonical name value' headers)
  = setHeader canonical name value headers.
Proof. unfold setHeader. apply insert_insert_eq. Qed.


End SecurityHeaders.

